(** * os_volume_backup: create, delete or restore Cinder volume backups

    A shallow embedding of
    [lib/ansible/modules/cloud/openstack/os_volume_backup.py].

    The module is a thin controller over the OpenStack SDK: it reads its
    parameters, queries the cloud facade, performs at most one mutating
    facade call and leaves through [module.exit_json] or
    [module.fail_json].  The embedding keeps that shape:

    - the facade is an arbitrary stateful object ([Cloud]), each of whose
      operations may return a value or raise;
    - module code runs in a small monad [M] that threads the facade's state,
      records every facade call with its response, and carries the three
      ways control leaves a Python function early ([exit_json],
      [fail_json], an exception);
    - dictionaries ([filters], the keyword arguments of [exit_json] and
      [fail_json]) are finite maps. *)

From Stdlib Require Import ZArith String List.
From stdpp Require Import base option strings gmap list.

Local Open Scope string_scope.

(** ** Data model *)

(** Objects returned by the facade.  They are attribute dictionaries with
    an [id]; such an object is never falsy. *)
Record Volume := mkVolume {
  vol_id : string;
  vol_name : string
}.

Record VolumeBackup := mkBackup {
  bk_id : string;
  bk_name : string;
  bk_volume_id : string;
  bk_size : Z;
  bk_status : string;
  bk_has_dependent_backups : bool;
  bk_is_incremental : bool
}.

Record RestoreResult := mkRestore {
  rs_backup_id : string;
  rs_volume_id : string;
  rs_volume_name : string
}.

(** Python values that reach [exit_json] / [fail_json]. *)
Inductive pyval :=
| PNone
| PBool (b : bool)
| PStr (s : string)
| PBackup (b : VolumeBackup)
| PRestore (r : RestoreResult).

(** An exception raised by the facade.  The SDK's exception classes are
    not part of this repository, so an exception carries the answers to
    the three [isinstance] tests the module performs and the two
    attributes it reads. *)
Record sdk_exception := mkExc {
  is_HttpException : bool;
  is_OpenStackCloudException : bool;
  is_ResourceTimeout : bool;
  message : pyval;
  details : pyval
}.

Inductive exception :=
| SdkError (e : sdk_exception)
| AttributeError      (* [volume.id] with [volume] being [None] *)
| TypeError.          (* [volume['id']] with [volume] being [None] *)

(** ** Module parameters *)

Inductive mode_t := mode_backup | mode_restore.
Inductive state_t := present | absent.

Record params := mkParams {
  param_backup : string;                       (* required *)
  param_display_description : option string;   (* default None *)
  param_source_volume : option string;
  param_target_volume : option string;
  param_mode : mode_t;                         (* default 'backup' *)
  param_force : bool;                          (* default False *)
  param_state : state_t;                       (* default 'present' *)
  param_wait : bool;
  param_timeout : Z
}.

Record AnsibleModule := mkModule {
  module_params : params;
  check_mode : bool
}.

Definition mode_eqb (a b : mode_t) : bool :=
  match a, b with
  | mode_backup, mode_backup | mode_restore, mode_restore => true
  | _, _ => false
  end.

Definition state_eqb (a b : state_t) : bool :=
  match a, b with
  | present, present | absent, absent => true
  | _, _ => false
  end.

(** Truthiness of [module.params.get(key, False)] for a string-valued
    parameter: [None] and the empty string are falsy.  The result is the
    string when it is truthy. *)
Definition truthy (o : option string) : option string :=
  match o with
  | Some s => if String.eqb s "" then None else Some s
  | None => None
  end.

(** [str(x)] as used by ["{0}".format(x)]. *)
Definition py_str (o : option string) : string :=
  match o with
  | Some s => s
  | None => "None"
  end.

(** ** The cloud facade *)

Inductive call :=
| CGetVolume (name_or_id : option string)
| CVolumeExists (name_or_id : option string)
| CGetVolumeBackup (name_or_id : string) (filters : gmap string string)
| CCreateVolumeBackup (volume_id : string) (force wait : bool) (timeout : Z)
                      (name : string) (description : option string)
| CDeleteVolumeBackup (name_or_id : string) (wait : bool) (timeout : Z)
| CRestoreVolumeBackup (backup_id : string)
                       (volume_name volume_id : option string)
                       (wait : bool) (timeout : Z).

Inductive response :=
| RVolume (v : option Volume)
| RBool (b : bool)
| RBackup (b : option VolumeBackup)
| RCreated (b : VolumeBackup)
| RRestored (r : RestoreResult)
| RRaised (e : exception).

Definition event : Type := call * response.

Definition is_mutating (c : call) : bool :=
  match c with
  | CCreateVolumeBackup _ _ _ _ _ _
  | CDeleteVolumeBackup _ _ _
  | CRestoreVolumeBackup _ _ _ _ _ => true
  | _ => false
  end.

(** The mutating facade calls of a trace, in order. *)
Definition mutating_calls (tr : list event) : list call :=
  List.filter is_mutating (List.map fst tr).

(** The facade: any object with these six operations over some state. *)
Record Cloud (St : Type) := mkCloud {
  get_volume : option string -> St -> (exception + option Volume) * St;
  volume_exists : option string -> St -> (exception + bool) * St;
  get_volume_backup :
    string -> gmap string string -> St -> (exception + option VolumeBackup) * St;
  create_volume_backup :
    string -> bool -> bool -> Z -> string -> option string ->
    St -> (exception + VolumeBackup) * St;
  delete_volume_backup :
    string -> bool -> Z -> St -> (exception + bool) * St;
  restore_volume_backup :
    string -> option string -> option string -> bool -> Z ->
    St -> (exception + RestoreResult) * St
}.

Arguments get_volume {St}.
Arguments volume_exists {St}.
Arguments get_volume_backup {St}.
Arguments create_volume_backup {St}.
Arguments delete_volume_backup {St}.
Arguments restore_volume_backup {St}.

(** ** The module monad *)

Inductive outcome (A : Type) :=
| Return (a : A)                        (* the code ran to its end *)
| ExitJson (kw : gmap string pyval)     (* module.exit_json *)
| FailJson (kw : gmap string pyval)     (* module.fail_json *)
| Uncaught (e : exception).             (* an exception on its way up *)

Arguments Return {A}.
Arguments ExitJson {A}.
Arguments FailJson {A}.
Arguments Uncaught {A}.

Section Monad.
Context {St : Type}.

Definition world : Type := St * list event.

Definition M (A : Type) : Type := world -> outcome A * world.

Definition ret {A} (a : A) : M A := fun w => (Return a, w).

Definition bind {A B} (m : M A) (k : A -> M B) : M B :=
  fun w =>
    match m w with
    | (Return a, w') => k a w'
    | (ExitJson kw, w') => (ExitJson kw, w')
    | (FailJson kw, w') => (FailJson kw, w')
    | (Uncaught e, w') => (Uncaught e, w')
    end.

Definition exit_json {A} (kw : gmap string pyval) : M A :=
  fun w => (ExitJson kw, w).

Definition fail_json {A} (kw : gmap string pyval) : M A :=
  fun w => (FailJson kw, w).

Definition raise {A} (e : exception) : M A :=
  fun w => (Uncaught e, w).

(** [try: body  except <classes> as e: handler e] *)
Definition try_except {A} (body : M A) (catches : exception -> bool)
           (handler : exception -> M A) : M A :=
  fun w =>
    match body w with
    | (Uncaught e, w') => if catches e then handler e w' else (Uncaught e, w')
    | r => r
    end.

(** [if cond: body] with nothing after it in the branch. *)
Definition when (cond : bool) (body : M unit) : M unit :=
  if cond then body else ret tt.

(** One facade call: run it on the facade's state and log it. *)
Definition facade {R} (c : call) (op : St -> (exception + R) * St)
           (log : R -> response) : M R :=
  fun w =>
    match op (fst w) with
    | (inr r, s') => (Return r, (s', (snd w ++ [(c, log r)])%list))
    | (inl e, s') => (Uncaught e, (s', (snd w ++ [(c, RRaised e)])%list))
    end.
End Monad.

(** [M] is a monad in stdpp's sense, which gives the notations
    [x ← m; k] and [m;; k]. *)
Global Instance M_ret {St} : MRet (@M St) := @ret St.
Global Instance M_bind {St} : MBind (@M St) := fun A B k m => bind m k.

(** ** The module's functions *)

(** [except sdk.exceptions.HttpException] *)
Definition catches_HttpException (e : exception) : bool :=
  match e with
  | SdkError x => is_HttpException x
  | _ => false
  end.

(** [except (sdk.exceptions.OpenStackCloudException,
             sdk.exceptions.ResourceTimeout)] *)
Definition catches_cloud_or_timeout (e : exception) : bool :=
  match e with
  | SdkError x => is_OpenStackCloudException x || is_ResourceTimeout x
  | _ => false
  end.

(** [e.details] and [e.message] of a caught exception. *)
Definition exc_details (e : exception) : pyval :=
  match e with
  | SdkError x => details x
  | _ => PNone
  end.

Definition exc_message (e : exception) : pyval :=
  match e with
  | SdkError x => message x
  | _ => PNone
  end.

Definition no_volume_msg (p : params) : string :=
  "No volume with name or id '" ++ py_str (param_source_volume p)
    ++ "' was found.".

Definition no_backup_msg (p : params) : string :=
  "No backup name or id '" ++ param_backup p ++ "' was found.".

Definition restore_check_mode_msg : string :=
  "mode 'restore' does not support check mode, skipping".

Section Module.
Context {St : Type} (cloud : Cloud St).

Local Abbreviation M := (M (St:=St)).

(** The facade's operations as the module calls them. *)
Definition cloud_get_volume (name_or_id : option string) : M (option Volume) :=
  facade (CGetVolume name_or_id) (get_volume cloud name_or_id) RVolume.

Definition cloud_volume_exists (name_or_id : option string) : M bool :=
  facade (CVolumeExists name_or_id) (volume_exists cloud name_or_id) RBool.

Definition cloud_get_volume_backup (name_or_id : string)
           (filters : gmap string string) : M (option VolumeBackup) :=
  facade (CGetVolumeBackup name_or_id filters)
         (get_volume_backup cloud name_or_id filters) RBackup.

Definition cloud_create_volume_backup (volume_id : string)
           (force wait : bool) (timeout : Z) (name : string)
           (description : option string) : M VolumeBackup :=
  facade (CCreateVolumeBackup volume_id force wait timeout name description)
         (create_volume_backup cloud volume_id force wait timeout name
                               description)
         RCreated.

Definition cloud_delete_volume_backup (name_or_id : string) (wait : bool)
           (timeout : Z) : M bool :=
  facade (CDeleteVolumeBackup name_or_id wait timeout)
         (delete_volume_backup cloud name_or_id wait timeout) RBool.

Definition cloud_restore_volume_backup (backup_id : string)
           (volume_name volume_id : option string) (wait : bool)
           (timeout : Z) : M RestoreResult :=
  facade (CRestoreVolumeBackup backup_id volume_name volume_id wait timeout)
         (restore_volume_backup cloud backup_id volume_name volume_id wait
                                timeout)
         RRestored.

(** [volume.id]: an AttributeError when [volume] is [None]. *)
Definition attr_id (volume : option Volume) : M string :=
  match volume with
  | Some v => ret (vol_id v)
  | None => raise AttributeError
  end.

(** [volume['id']]: a TypeError when [volume] is [None]. *)
Definition item_id (volume : option Volume) : M string :=
  match volume with
  | Some v => ret (vol_id v)
  | None => raise TypeError
  end.

Definition _present_volume_backup (module : AnsibleModule) : M unit :=
  let p := module_params module in
  volume ← cloud_get_volume (param_source_volume p);
  volume_id ← attr_id volume;
  backup ← cloud_get_volume_backup (param_backup p)
                                   {[ "volume_id" := volume_id ]};
  match backup with
  | None =>                                   (* if not backup: *)
      backup ← try_except
                 (volume_id ← attr_id volume;
                  cloud_create_volume_backup volume_id
                    (param_force p) (param_wait p) (param_timeout p)
                    (param_backup p) (param_display_description p))
                 catches_HttpException
                 (λ e, fail_json {[ "msg" := exc_details e ]});
      exit_json {[ "changed" := PBool true; "backup" := PBackup backup ]}
  | Some backup =>                            (* else: *)
      exit_json {[ "changed" := PBool false; "backup" := PBackup backup ]}
  end.

(** The [filters] dictionary of the delete and restore paths. *)
Definition source_volume_filters (p : params) : gmap string string :=
  let filters : gmap string string := ∅ in
  match truthy (param_source_volume p) with
  | Some source_volume => <[ "volume_id" := source_volume ]> filters
  | None => filters
  end.

Definition _absent_volume_backup (module : AnsibleModule) : M unit :=
  let p := module_params module in
  let filters := source_volume_filters p in
  backup ← cloud_get_volume_backup (param_backup p) filters;
  match backup with
  | None =>                                   (* if not backup: *)
      exit_json {[ "changed" := PBool false ]}
  | Some backup =>                            (* else: *)
      cloud_delete_volume_backup (bk_id backup) (param_wait p)
                                 (param_timeout p);;
      exit_json {[ "changed" := PBool true;
                   "backup_id" := PStr (bk_id backup) ]}
  end.

Definition _restore_volume_backup (module : AnsibleModule) : M unit :=
  let p := module_params module in
  let volume_id : option string := None in
  let volume_name : option string := None in
  let filters := source_volume_filters p in
  '(volume_name, volume_id) ←
    match truthy (param_target_volume p) with
    | Some target_volume =>
        found ← cloud_volume_exists (param_target_volume p);
        if found : bool then
          volume ← cloud_get_volume (param_target_volume p);
          id ← item_id volume;
          ret (volume_name, Some id)
        else
          ret (Some target_volume, volume_id)
    | None => ret (volume_name, volume_id)
    end;
  backup ← cloud_get_volume_backup (param_backup p) filters;
  match backup with
  | Some backup =>                            (* if backup: *)
      restore ← cloud_restore_volume_backup (bk_id backup)
                  volume_name volume_id (param_wait p) (param_timeout p);
      exit_json {[ "changed" := PBool true; "restore" := PRestore restore ]}
  | None =>                                   (* else: *)
      fail_json {[ "msg" := PStr (no_backup_msg p) ]}
  end.

(** [backup is None] / [backup is not None]; the parameter's [choices]
    leave no third state, for which the function would return [None]. *)
Definition _system_state_change (module : AnsibleModule) : M pyval :=
  let p := module_params module in
  volume ← cloud_get_volume (param_source_volume p);
  volume_id ← attr_id volume;
  backup ← cloud_get_volume_backup (param_backup p)
                                   {[ "volume_id" := volume_id ]};
  let state := param_state p in
  if state_eqb state present then
    ret (PBool (bool_decide (backup = None)))
  else if state_eqb state absent then
    ret (PBool (negb (bool_decide (backup = None))))
  else ret PNone.

Definition main (module : AnsibleModule) : M unit :=
  let p := module_params module in
  let state := param_state p in
  let mode := param_mode p in
  try_except
    (when (mode_eqb mode mode_backup)
       (when (check_mode module)
          (changed ← _system_state_change module;
           exit_json {[ "changed" := changed ]});;
        when (state_eqb state present)
          (found ← cloud_volume_exists (param_source_volume p);
           if found : bool then _present_volume_backup module
           else fail_json {[ "msg" := PStr (no_volume_msg p) ]});;
        when (state_eqb state absent)
          (_absent_volume_backup module));;
     when (mode_eqb mode mode_restore)
       (when (check_mode module)
          (exit_json {[ "skipped" := PBool true;
                        "msg" := PStr restore_check_mode_msg ]});;
        _restore_volume_backup module))
    catches_cloud_or_timeout
    (λ e, fail_json {[ "msg" := exc_message e ]}).

(** Running a piece of module code against the facade in state [s],
    starting with an empty trace. *)
Definition exec {A} (m : M A) (s : St) : outcome A * world (St:=St) :=
  m (s, []).

Definition outcome_of {A} (r : outcome A * world (St:=St)) : outcome A := fst r.
Definition state_of {A} (r : outcome A * world (St:=St)) : St := fst (snd r).
Definition trace_of {A} (r : outcome A * world (St:=St)) : list event :=
  snd (snd r).
End Module.

(** ** What the module expects of the facade between two runs

    The module itself keeps no state; whether a second run sees the first
    run's backup is the facade's business.  A facade is [Persistent] when
    its three queries leave its state alone, a successful
    [create_volume_backup] leaves the answers about volumes as they were,
    and the backup it created is found by a later lookup under the name and
    volume id it was created with. *)
Record Persistent {St} (cloud : Cloud St) : Prop := {
  get_volume_reads : ∀ x s, snd (get_volume cloud x s) = s;
  volume_exists_reads : ∀ x s, snd (volume_exists cloud x s) = s;
  get_volume_backup_reads : ∀ n f s, snd (get_volume_backup cloud n f s) = s;
  create_keeps_volumes :
    ∀ volume_id force wait timeout name description s b s',
      create_volume_backup cloud volume_id force wait timeout name description s
      = (inr b, s') →
      ∀ x, fst (get_volume cloud x s') = fst (get_volume cloud x s)
           ∧ fst (volume_exists cloud x s') = fst (volume_exists cloud x s);
  create_is_found :
    ∀ volume_id force wait timeout name description s b s',
      create_volume_backup cloud volume_id force wait timeout name description s
      = (inr b, s') →
      ∃ b', fst (get_volume_backup cloud name {[ "volume_id" := volume_id ]} s')
            = inr (Some b')
}.

(** ** An in-memory facade

    A small cloud kept in memory, on which the module can be run on
    concrete inputs: a list of volumes, a list of backups, and an optional
    fault that every mutating operation raises when it is set. *)
Module MemCloud.

Record state := mkState {
  volumes : list Volume;
  backups : list VolumeBackup;
  fault : option exception
}.

Definition names (name_or_id : string) (id name : string) : bool :=
  String.eqb name_or_id id || String.eqb name_or_id name.

Definition volume_matches (name_or_id : option string) (v : Volume) : bool :=
  match name_or_id with
  | Some n => names n (vol_id v) (vol_name v)
  | None => false
  end.

Definition backup_matches (name_or_id : string)
           (filters : gmap string string) (b : VolumeBackup) : bool :=
  names name_or_id (bk_id b) (bk_name b)
  && match filters !! "volume_id" with
     | Some vid => String.eqb vid (bk_volume_id b)
     | None => true
     end.

Definition find_volume (name_or_id : option string) (s : state)
  : option Volume :=
  List.find (volume_matches name_or_id) (volumes s).

Definition new_backup (volume_id name : string) : VolumeBackup :=
  mkBackup ("backup:" ++ name ++ "@" ++ volume_id) name volume_id 1
           "creating" false false.

Definition mutate {R} (s : state) (r : R) (s' : state)
  : (exception + R) * state :=
  match fault s with
  | Some e => (inl e, s)
  | None => (inr r, s')
  end.

Definition cloud : Cloud state := {|
  get_volume n s := (inr (find_volume n s), s);
  volume_exists n s := (inr (bool_decide (is_Some (find_volume n s))), s);
  get_volume_backup n filters s :=
    (inr (List.find (backup_matches n filters) (backups s)), s);
  create_volume_backup volume_id force wait timeout name description s :=
    mutate s (new_backup volume_id name)
           (mkState (volumes s) (new_backup volume_id name :: backups s)
                    (fault s));
  delete_volume_backup n wait timeout s :=
    mutate s true
           (mkState (volumes s)
                    (List.filter (λ b, negb (String.eqb n (bk_id b)))
                                 (backups s))
                    (fault s));
  restore_volume_backup backup_id volume_name volume_id wait timeout s :=
    mutate s (mkRestore backup_id
                        (default ("volume-for:" ++ backup_id) volume_id)
                        (default ("restore_backup_" ++ backup_id) volume_name))
           s
|}.

(** One volume, named [vol-1] with id [vol-1-id]; one backup of it. *)
Definition vol1 : Volume := mkVolume "vol-1-id" "vol-1".
Definition bk1 : VolumeBackup :=
  mkBackup "bk-1-id" "bk-1" "vol-1-id" 1 "available" false false.

Definition empty_cloud : state := mkState [vol1] [] None.
Definition one_backup : state := mkState [vol1] [bk1] None.

(** An HTTP error as the SDK raises it: also an OpenStackCloudException,
    with a message and separate details. *)
Definition conflict : exception :=
  SdkError (mkExc true true false (PStr "Conflict") (PStr "backup is busy")).

Definition faulty (s : state) : state :=
  mkState (volumes s) (backups s) (Some conflict).

Definition module_of (backup : string) (source target : option string)
           (mode : mode_t) (state : state_t) (check : bool) : AnsibleModule :=
  mkModule (mkParams backup None source target mode false state true 180)
           check.
End MemCloud.

(** ** Further facades and facade laws *)

(** A facade whose three queries leave its state as it was. *)
Record ReadOnlyQueries {St} (cloud : Cloud St) : Prop := {
  ro_get_volume : ∀ x s, snd (get_volume cloud x s) = s;
  ro_volume_exists : ∀ x s, snd (volume_exists cloud x s) = s;
  ro_get_volume_backup : ∀ n f s, snd (get_volume_backup cloud n f s) = s
}.

(** A facade on which a volume is gone by the time it is fetched:
    [volume_exists] answers True and [get_volume] answers None. *)
Module VanishingCloud.
Definition cloud : Cloud unit := {|
  get_volume n s := (inr None, s);
  volume_exists n s := (inr true, s);
  get_volume_backup n filters s := (inr None, s);
  create_volume_backup volume_id force wait timeout name description s :=
    (inl TypeError, s);
  delete_volume_backup n wait timeout s := (inr false, s);
  restore_volume_backup backup_id volume_name volume_id wait timeout s :=
    (inl TypeError, s)
|}.
End VanishingCloud.

(** A facade every operation of which raises the same exception. *)
Module UnreachableCloud.
Definition cloud (e : exception) : Cloud unit := {|
  get_volume n s := (inl e, s);
  volume_exists n s := (inl e, s);
  get_volume_backup n filters s := (inl e, s);
  create_volume_backup volume_id force wait timeout name description s :=
    (inl e, s);
  delete_volume_backup n wait timeout s := (inl e, s);
  restore_volume_backup backup_id volume_name volume_id wait timeout s :=
    (inl e, s)
|}.

(** A timeout as the SDK raises it while waiting. *)
Definition timed_out : exception :=
  SdkError (mkExc false false true (PStr "Timeout waiting") PNone).
End UnreachableCloud.

(** ** Proof automation *)

(** Split the next facade call of the run under consideration into its
    possible answers. *)
Ltac facade_step :=
  match goal with
  | |- context [get_volume ?c ?x ?s] =>
      destruct (get_volume c x s) as [[?e|[?v|]] ?s] eqn:?
  | |- context [volume_exists ?c ?x ?s] =>
      destruct (volume_exists c x s) as [[?e|[|]] ?s] eqn:?
  | |- context [get_volume_backup ?c ?x ?f ?s] =>
      destruct (get_volume_backup c x f s) as [[?e|[?b|]] ?s] eqn:?
  | |- context [create_volume_backup ?c ?v ?f ?w ?t ?n ?d ?s] =>
      destruct (create_volume_backup c v f w t n d s) as [[?e|?b] ?s] eqn:?
  | |- context [delete_volume_backup ?c ?x ?w ?t ?s] =>
      destruct (delete_volume_backup c x w t s) as [[?e|?b] ?s] eqn:?
  | |- context [restore_volume_backup ?c ?b ?n ?v ?w ?t ?s] =>
      destruct (restore_volume_backup c b n v w t s) as [[?e|?r] ?s] eqn:?
  | |- context [truthy ?x] => destruct (truthy x) eqn:?
  | |- context [catches_HttpException ?e] =>
      destruct (catches_HttpException e) eqn:?
  | |- context [catches_cloud_or_timeout ?e] =>
      destruct (catches_cloud_or_timeout e) eqn:?
  end.

Ltac unfold_module :=
  unfold exec, outcome_of, state_of, trace_of, main, _system_state_change,
    _present_volume_backup, _absent_volume_backup, _restore_volume_backup,
    source_volume_filters, cloud_get_volume, cloud_volume_exists,
    cloud_get_volume_backup, cloud_create_volume_backup,
    cloud_delete_volume_backup, cloud_restore_volume_backup, attr_id, item_id,
    try_except, when, facade, exit_json, fail_json, raise,
    mbind, M_bind, bind, ret in *.

Ltac destruct_module module :=
  destruct module as [[name description source target mode force state wait
                       timeout] check];
  cbn [module_params check_mode param_backup param_display_description
       param_source_volume param_target_volume param_mode param_force
       param_state param_wait param_timeout] in *;
  subst.

Ltac run := unfold_module; cbn; repeat (facade_step; cbn).

(** Close a goal about a fully split run: the hypotheses that say which
    events the trace holds are disjunctions of equations. *)
Ltac settle :=
  cbn in *;
  repeat (intros; destruct_or?; simplify_eq;
          try match goal with
              | |- _ ∧ _ => split
              | |- ∃ _, _ => eexists
              end);
  try done; eauto.

(** ** The parameter test *)

(** A parameter passes the source's test when it is given and is not the
    empty string; what the test lets through is the parameter itself. *)
Lemma truthy_Some (o : option string) (s : string) :
  truthy o = Some s → o = Some s.
Proof.
  destruct o as [x|]; cbn; [| discriminate].
  destruct (String.eqb x ""); congruence.
Qed.

Lemma truthy_nonempty (o : option string) (s : string) :
  truthy o = Some s → s ≠ "".
Proof.
  destruct o as [x|]; cbn; [| discriminate].
  destruct (String.eqb_spec x ""); congruence.
Qed.

Lemma truthy_None (o : option string) :
  truthy o = None ↔ o = None ∨ o = Some "".
Proof.
  destruct o as [x|]; cbn; [| tauto].
  destruct (String.eqb_spec x ""); subst; split; intros; try tauto;
    try discriminate.
  destruct H as [H | H]; congruence.
Qed.

Lemma truthy_supplied (s : string) : s ≠ "" → truthy (Some s) = Some s.
Proof. cbn. destruct (String.eqb_spec s ""); congruence. Qed.

Ltac literal_filter :=
  match goal with
  | H : truthy (Some ?sv) = _, Hne : ?sv ≠ "" |- _ =>
      rewrite (truthy_supplied sv Hne) in H; simplify_eq; reflexivity
  end.

(** ** Dry run *)

(** C5.  A check-mode invocation with mode=restore leaves through
    [exit_json] with skipped=true and an explanatory message; it is
    neither a failure nor a change report, and it makes no facade call at
    all, so [restore_volume_backup] is not invoked. *)
Theorem restore_check_mode_is_skipped :
  ∀ {St} (cloud : Cloud St) (module : AnsibleModule) (s : St),
    param_mode (module_params module) = mode_restore →
    check_mode module = true →
    exec (main cloud module) s
    = (ExitJson {[ "skipped" := PBool true;
                   "msg" := PStr restore_check_mode_msg ]}, (s, [])).
Proof.
  intros St cloud module s Hmode Hcheck.
  destruct_module module. reflexivity.
Qed.

Lemma restore_check_mode_is_skipped_witness :
  exec (main MemCloud.cloud
          (MemCloud.module_of "bk-1" None None mode_restore present true))
       MemCloud.one_backup
  = (ExitJson {[ "skipped" := PBool true;
                 "msg" := PStr restore_check_mode_msg ]},
     (MemCloud.one_backup, [])).
Proof.
  apply (restore_check_mode_is_skipped MemCloud.cloud); reflexivity.
Defined.

(** X16.  A check-mode invocation with mode=backup makes no mutating
    facade call, whatever the facade answers.  When [get_volume] returns a
    volume for source_volume and the backup lookup filtered by that
    volume's id returns, the run is those two queries and nothing else, and
    it exits with the single field changed, equal to
    ((state == present) == (the lookup found no backup)). *)
Theorem check_mode_backup_reports_change :
  ∀ {St} (cloud : Cloud St) (module : AnsibleModule) (s : St),
    let p := module_params module in
    let r := exec (main cloud module) s in
    check_mode module = true →
    param_mode p = mode_backup →
    mutating_calls (trace_of r) = []
    ∧ ∀ v found s1 s2,
        get_volume cloud (param_source_volume p) s = (inr (Some v), s1) →
        get_volume_backup cloud (param_backup p)
                          {[ "volume_id" := vol_id v ]} s1
        = (inr found, s2) →
        r = (ExitJson {[ "changed" :=
                PBool (Bool.eqb (state_eqb (param_state p) present)
                                (bool_decide (found = None))) ]},
             (s2, [(CGetVolume (param_source_volume p), RVolume (Some v));
                   (CGetVolumeBackup (param_backup p)
                                     {[ "volume_id" := vol_id v ]},
                    RBackup found)])).
Proof.
  intros St cloud module s p r Hcheck Hmode. subst p r.
  destruct_module module.
  split.
  - destruct state; run; reflexivity.
  - intros v found s1 s2 Hvolume Hlookup.
    unfold_module; cbn. rewrite Hvolume; cbn. rewrite Hlookup; cbn.
    destruct state, found; reflexivity.
Qed.

Lemma check_mode_backup_reports_change_witness :
  let dry state name :=
    exec (main MemCloud.cloud
            (MemCloud.module_of name (Some "vol-1") None mode_backup state
                                true))
         MemCloud.one_backup in
  let trace name found :=
    [(CGetVolume (Some "vol-1"), RVolume (Some MemCloud.vol1));
     (CGetVolumeBackup name {[ "volume_id" := "vol-1-id" ]}, RBackup found)] in
  dry absent "bk-1"
  = (ExitJson {[ "changed" := PBool true ]},
     (MemCloud.one_backup, trace "bk-1" (Some MemCloud.bk1)))
  ∧ dry present "bk-1"
    = (ExitJson {[ "changed" := PBool false ]},
       (MemCloud.one_backup, trace "bk-1" (Some MemCloud.bk1)))
  ∧ dry present "bk-2"
    = (ExitJson {[ "changed" := PBool true ]},
       (MemCloud.one_backup, trace "bk-2" None))
  ∧ dry absent "bk-2"
    = (ExitJson {[ "changed" := PBool false ]},
       (MemCloud.one_backup, trace "bk-2" None)).
Proof.
  intros dry trace. subst dry trace. cbv beta.
  split; [| split; [| split]].
  - apply (proj2 (check_mode_backup_reports_change MemCloud.cloud
             (MemCloud.module_of "bk-1" (Some "vol-1") None mode_backup absent
                                 true)
             MemCloud.one_backup eq_refl eq_refl) MemCloud.vol1
             (Some MemCloud.bk1) MemCloud.one_backup MemCloud.one_backup);
      reflexivity.
  - apply (proj2 (check_mode_backup_reports_change MemCloud.cloud
             (MemCloud.module_of "bk-1" (Some "vol-1") None mode_backup present
                                 true)
             MemCloud.one_backup eq_refl eq_refl) MemCloud.vol1
             (Some MemCloud.bk1) MemCloud.one_backup MemCloud.one_backup);
      reflexivity.
  - apply (proj2 (check_mode_backup_reports_change MemCloud.cloud
             (MemCloud.module_of "bk-2" (Some "vol-1") None mode_backup present
                                 true)
             MemCloud.one_backup eq_refl eq_refl) MemCloud.vol1 None
             MemCloud.one_backup MemCloud.one_backup);
      reflexivity.
  - apply (proj2 (check_mode_backup_reports_change MemCloud.cloud
             (MemCloud.module_of "bk-2" (Some "vol-1") None mode_backup absent
                                 true)
             MemCloud.one_backup eq_refl eq_refl) MemCloud.vol1 None
             MemCloud.one_backup MemCloud.one_backup);
      reflexivity.
Defined.

(** C4.  The code misses a case of the claim.  A check-mode invocation
    with mode=backup, state=absent and source_volume omitted, which the
    module documents as required only for state=present, returns no result
    at all: [_system_state_change] fetches the volume, gets None, and
    [volume.id] raises an AttributeError that [main] does not catch.  The
    same invocation outside check mode deletes the backup and reports
    changed=true, which is what the dry run should have predicted. *)
Lemma check_mode_absent_without_source_volume_crashes :
  let dry := MemCloud.module_of "bk-1" None None mode_backup absent true in
  let real := MemCloud.module_of "bk-1" None None mode_backup absent false in
  exec (main MemCloud.cloud dry) MemCloud.one_backup
  = (Uncaught AttributeError,
     (MemCloud.one_backup, [(CGetVolume None, RVolume None)]))
  ∧ outcome_of (exec (main MemCloud.cloud real) MemCloud.one_backup)
    = ExitJson {[ "changed" := PBool true; "backup_id" := PStr "bk-1-id" ]}.
Proof. split; vm_compute; reflexivity. Qed.



(** ** mode=backup, state=present *)



(** The in-memory facade is persistent. *)
Lemma mem_cloud_persistent : Persistent MemCloud.cloud.
Proof.
  split; try reflexivity.
  - intros volume_id force wait timeout name description s b s'.
    cbn. unfold MemCloud.mutate. destruct (MemCloud.fault s); intros H x;
      simplify_eq. split; reflexivity.
  - intros volume_id force wait timeout name description s b s'.
    cbn. unfold MemCloud.mutate. destruct (MemCloud.fault s); intros H;
      simplify_eq.
    exists (MemCloud.new_backup volume_id name). cbn.
    unfold MemCloud.backup_matches, MemCloud.names. cbn.
    rewrite lookup_singleton_eq, !String.eqb_refl, orb_true_r. reflexivity.
Qed.

Lemma query_answer {St A} (op : St → A * St) (s s' : St) (a : A) :
  snd (op s) = s → op s = (a, s') → s' = s.
Proof. intros H1 H2. rewrite H2 in H1. exact H1. Qed.

Lemma query_again {St A} (op : St → A * St) (s : St) (a : A) :
  snd (op s) = s → fst (op s) = a → op s = (a, s).
Proof. destruct (op s); cbn; congruence. Qed.

Section Present.
Context {St : Type} (cloud : Cloud St) (module : AnsibleModule).

Hypothesis no_check : check_mode module = false.
Hypothesis backup_mode : param_mode (module_params module) = mode_backup.
Hypothesis state_present : param_state (module_params module) = present.

Local Abbreviation p := (module_params module).

(** The run that finds the backup in place. *)
Lemma present_found_run (v : Volume) (b : VolumeBackup) (s sa sb sc : St) :
  volume_exists cloud (param_source_volume p) s = (inr true, sa) →
  get_volume cloud (param_source_volume p) sa = (inr (Some v), sb) →
  get_volume_backup cloud (param_backup p) {[ "volume_id" := vol_id v ]} sb
  = (inr (Some b), sc) →
  exec (main cloud module) s
  = (ExitJson {[ "changed" := PBool false; "backup" := PBackup b ]},
     (sc, [(CVolumeExists (param_source_volume p), RBool true);
           (CGetVolume (param_source_volume p), RVolume (Some v));
           (CGetVolumeBackup (param_backup p) {[ "volume_id" := vol_id v ]},
            RBackup (Some b))])).
Proof.
  intros Hexists Hvolume Hlookup. destruct_module module.
  unfold_module. cbn.
  rewrite Hexists. cbn. rewrite Hvolume. cbn. rewrite Hlookup. reflexivity.
Qed.

(** A run that ends in [exit_json] resolved the volume and then either
    found the backup or created it. *)
Lemma present_exit_inv (s s1 : St) kw tr :
  exec (main cloud module) s = (ExitJson kw, (s1, tr)) →
  ∃ v sa sb,
    volume_exists cloud (param_source_volume p) s = (inr true, sa)
    ∧ get_volume cloud (param_source_volume p) sa = (inr (Some v), sb)
    ∧ ((∃ b, get_volume_backup cloud (param_backup p)
                               {[ "volume_id" := vol_id v ]} sb
             = (inr (Some b), s1))
       ∨ (∃ sc b,
            get_volume_backup cloud (param_backup p)
                              {[ "volume_id" := vol_id v ]} sb
            = (inr None, sc)
            ∧ create_volume_backup cloud (vol_id v) (param_force p)
                (param_wait p) (param_timeout p) (param_backup p)
                (param_display_description p) sc
              = (inr b, s1))).
Proof.
  destruct_module module.
  run; intros Hrun; simplify_eq; eauto 10.
Qed.

(** On a persistent facade, the run after a run that exited finds the
    backup in place. *)
Lemma present_second_run (s s1 : St) kw tr :
  Persistent cloud →
  exec (main cloud module) s = (ExitJson kw, (s1, tr)) →
  ∃ backup tr2,
    exec (main cloud module) s1
    = (ExitJson {[ "changed" := PBool false; "backup" := PBackup backup ]},
       (s1, tr2))
    ∧ mutating_calls tr2 = [].
Proof.
  intros [Hgv Hve Hgb Hkeep Hfound] Hrun.
  apply present_exit_inv in Hrun
    as (v & sa & sb & Hexists & Hvolume & Hlookup).
  pose proof (query_answer _ _ _ _ (Hve _ _) Hexists); subst sa.
  pose proof (query_answer _ _ _ _ (Hgv _ _) Hvolume); subst sb.
  destruct Hlookup as [[b Hlookup] | (sc & b & Hlookup & Hcreate)].
  - pose proof (query_answer _ _ _ _ (Hgb _ _ _) Hlookup); subst s1.
    eexists _, _. split; [eapply present_found_run; eauto | reflexivity].
  - pose proof (query_answer _ _ _ _ (Hgb _ _ _) Hlookup); subst sc.
    destruct (Hkeep _ _ _ _ _ _ _ _ _ Hcreate (param_source_volume p))
      as [Hv' He'].
    destruct (Hfound _ _ _ _ _ _ _ _ _ Hcreate) as [b' Hb'].
    rewrite Hvolume in Hv'. rewrite Hexists in He'. cbn in Hv', He'.
    eexists _, _.
    split; [eapply present_found_run; apply query_again; eauto
           | reflexivity].
Qed.
End Present.




(** ** mode=restore *)



(** C7, as the code has it.  Outside check mode, with mode=restore, in a
    run whose backup lookup finds a backup, [restore_volume_backup] is the
    one mutating call and it carries the target as follows.  When
    target_volume is supplied and not empty and the facade answers that
    such a volume exists, volume_id is the id of the volume [get_volume]
    returns and volume_name is None; when the facade answers that no such
    volume exists, volume_name is the target_volume string itself and
    volume_id is None; when target_volume is not supplied, or empty, both
    are None. *)
Theorem restore_passes_resolved_target :
  ∀ {St} (cloud : Cloud St) (module : AnsibleModule) (s : St),
    let p := module_params module in
    let r := exec (main cloud module) s in
    let target := param_target_volume p in
    let lookup := get_volume_backup cloud (param_backup p)
                                    (source_volume_filters p) in
    check_mode module = false →
    param_mode p = mode_restore →
    ∀ backup,
      (∀ name v s1 s2 s3,
         truthy target = Some name →
         volume_exists cloud target s = (inr true, s1) →
         get_volume cloud target s1 = (inr (Some v), s2) →
         lookup s2 = (inr (Some backup), s3) →
         mutating_calls (trace_of r)
         = [CRestoreVolumeBackup (bk_id backup) None (Some (vol_id v))
                                 (param_wait p) (param_timeout p)])
      ∧ (∀ name s1 s2,
           truthy target = Some name →
           volume_exists cloud target s = (inr false, s1) →
           lookup s1 = (inr (Some backup), s2) →
           target = Some name
           ∧ mutating_calls (trace_of r)
             = [CRestoreVolumeBackup (bk_id backup) (Some name) None
                                     (param_wait p) (param_timeout p)])
      ∧ (∀ s1,
           truthy target = None →
           lookup s = (inr (Some backup), s1) →
           mutating_calls (trace_of r)
           = [CRestoreVolumeBackup (bk_id backup) None None
                                   (param_wait p) (param_timeout p)]).
Proof.
  intros St cloud module s p r target lookup Hcheck Hmode backup.
  subst p r target lookup.
  destruct_module module.
  unfold source_volume_filters; cbn.
  split; [| split].
  - intros n v s1 s2 s3 Htarget Hexists Hvolume Hlookup.
    unfold_module; cbn. rewrite Htarget; cbn. rewrite Hexists; cbn.
    rewrite Hvolume; cbn. rewrite Hlookup; cbn.
    repeat (facade_step; cbn); reflexivity.
  - intros n s1 s2 Htarget Hexists Hlookup.
    split; [eauto using truthy_Some |].
    unfold_module; cbn. rewrite Htarget; cbn. rewrite Hexists; cbn.
    rewrite Hlookup; cbn.
    repeat (facade_step; cbn); reflexivity.
  - intros s1 Htarget Hlookup.
    unfold_module; cbn. rewrite Htarget; cbn. rewrite Hlookup; cbn.
    repeat (facade_step; cbn); reflexivity.
Qed.

Lemma restore_passes_resolved_target_witness :
  let run target :=
    trace_of (exec (main MemCloud.cloud
                      (MemCloud.module_of "bk-1" None target mode_restore
                                          present false))
                   MemCloud.one_backup) in
  mutating_calls (run (Some "vol-1"))
  = [CRestoreVolumeBackup "bk-1-id" None (Some "vol-1-id") true 180]
  ∧ mutating_calls (run (Some "vol-2"))
    = [CRestoreVolumeBackup "bk-1-id" (Some "vol-2") None true 180]
  ∧ mutating_calls (run None)
    = [CRestoreVolumeBackup "bk-1-id" None None true 180].
Proof.
  intros run. subst run. cbv beta.
  split; [| split].
  - destruct (restore_passes_resolved_target MemCloud.cloud
                (MemCloud.module_of "bk-1" None (Some "vol-1") mode_restore
                                    present false)
                MemCloud.one_backup eq_refl eq_refl MemCloud.bk1)
      as (Hexisting & _ & _).
    apply (Hexisting "vol-1" MemCloud.vol1 MemCloud.one_backup
             MemCloud.one_backup MemCloud.one_backup);
      vm_compute; reflexivity.
  - destruct (restore_passes_resolved_target MemCloud.cloud
                (MemCloud.module_of "bk-1" None (Some "vol-2") mode_restore
                                    present false)
                MemCloud.one_backup eq_refl eq_refl MemCloud.bk1)
      as (_ & Hnew & _).
    apply (Hnew "vol-2" MemCloud.one_backup MemCloud.one_backup);
      vm_compute; reflexivity.
  - destruct (restore_passes_resolved_target MemCloud.cloud
                (MemCloud.module_of "bk-1" None None mode_restore
                                    present false)
                MemCloud.one_backup eq_refl eq_refl MemCloud.bk1)
      as (_ & _ & Hnone).
    apply (Hnone MemCloud.one_backup); vm_compute; reflexivity.
Defined.

(** C7 as stated fails for a check-mode invocation: with mode=restore and
    target_volume naming an existing volume, a dry run is skipped before
    any facade call, so [restore_volume_backup] is not invoked, with that
    volume's id or otherwise. *)
Lemma restore_check_mode_invokes_nothing :
  let module := MemCloud.module_of "bk-1" None (Some "vol-1") mode_restore
                                   present true in
  let r := exec (main MemCloud.cloud module) MemCloud.one_backup in
  param_mode (module_params module) = mode_restore
  ∧ truthy (param_target_volume (module_params module)) = Some "vol-1"
  ∧ fst (volume_exists MemCloud.cloud (Some "vol-1") MemCloud.one_backup)
    = inr true
  ∧ trace_of r = []
  ∧ ¬ (∃ backup_id volume_name volume_id wait timeout answer,
         In (CRestoreVolumeBackup backup_id volume_name volume_id wait timeout,
             answer) (trace_of r)).
Proof.
  repeat split; try (vm_compute; reflexivity).
  intros (backup_id & volume_name & volume_id & wait & timeout & answer & Hin).
  vm_compute in Hin. exact Hin.
Qed.

(** ** mode=backup, state=absent *)




(** ** Errors raised by a mutating call *)

(** C8, as the code has it.  In any run, when a create, delete or restore
    call raises an HttpException, that call is the only mutating call of
    the run and the last facade call of all (nothing is retried).  Raised
    by [create_volume_backup], the error ends the run in a failure whose
    message is the error's [details]; raised by [delete_volume_backup] or
    [restore_volume_backup], it reaches the handler of [main], which turns
    an OpenStackCloudException or ResourceTimeout into a failure whose
    message is the error's [message], and lets any other error through. *)
Theorem mutation_error_surfaces :
  ∀ {St} (cloud : Cloud St) (module : AnsibleModule) (s : St),
    let r := exec (main cloud module) s in
    ∀ c e,
      is_mutating c = true →
      is_HttpException e = true →
      In (c, RRaised (SdkError e)) (trace_of r) →
      mutating_calls (trace_of r) = [c]
      ∧ (∃ before, trace_of r = (before ++ [(c, RRaised (SdkError e))])%list)
      ∧ outcome_of r
        = match c with
          | CCreateVolumeBackup _ _ _ _ _ _ =>
              FailJson {[ "msg" := details e ]}
          | _ =>
              if is_OpenStackCloudException e || is_ResourceTimeout e
              then FailJson {[ "msg" := message e ]}
              else Uncaught (SdkError e)
          end.
Proof.
  intros St cloud module s r c e Hmut Hhttp. subst r.
  destruct_module module.
  destruct mode, state, check; run; cbn; intros Hin; destruct_or?;
    simplify_eq; try done; cbn in *; simplify_eq.
  all: repeat match goal with
         | H : _ || _ = _ |- _ => rewrite H
         end.
  all: try congruence.
  all: repeat split; try reflexivity.
  all: try (eexists [_]; reflexivity).
  all: try (eexists [_;_]; reflexivity).
  all: try (eexists [_;_;_]; reflexivity).
Qed.

Lemma mutation_error_surfaces_witness :
  let create := MemCloud.module_of "bk-2" (Some "vol-1") None mode_backup
                                   present false in
  let delete := MemCloud.module_of "bk-1" None None mode_backup absent false in
  let s := MemCloud.faulty MemCloud.one_backup in
  outcome_of (exec (main MemCloud.cloud create) s)
  = FailJson {[ "msg" := PStr "backup is busy" ]}
  ∧ outcome_of (exec (main MemCloud.cloud delete) s)
    = FailJson {[ "msg" := PStr "Conflict" ]}.
Proof.
  intros create delete s. split.
  - apply (mutation_error_surfaces MemCloud.cloud create s
             (CCreateVolumeBackup "vol-1-id" false true 180 "bk-2" None)
             (mkExc true true false (PStr "Conflict") (PStr "backup is busy")));
      [reflexivity | reflexivity | vm_compute; auto].
  - apply (mutation_error_surfaces MemCloud.cloud delete s
             (CDeleteVolumeBackup "bk-1-id" true 180)
             (mkExc true true false (PStr "Conflict") (PStr "backup is busy")));
      [reflexivity | reflexivity | vm_compute; auto].
Defined.

(** C8 as stated fails for delete (and likewise restore): an HttpException
    raised by [delete_volume_backup] ends the run in a failure whose
    message is the error's [message], here "Conflict", and not its
    [details], here "backup is busy". *)
Lemma delete_error_message_is_not_details :
  let module := MemCloud.module_of "bk-1" None None mode_backup absent false in
  let r := exec (main MemCloud.cloud module)
                (MemCloud.faulty MemCloud.one_backup) in
  In (CDeleteVolumeBackup "bk-1-id" true 180, RRaised MemCloud.conflict)
     (trace_of r)
  ∧ catches_HttpException MemCloud.conflict = true
  ∧ exc_details MemCloud.conflict = PStr "backup is busy"
  ∧ outcome_of r = FailJson {[ "msg" := PStr "Conflict" ]}
  ∧ outcome_of r ≠ FailJson {[ "msg" := exc_details MemCloud.conflict ]}.
Proof.
  repeat split; try (vm_compute; auto; fail).
  intros Houtcome. vm_compute in Houtcome. discriminate.
Qed.

(** ** The lookup filter *)

(** C9, as the code has it.  Outside check mode with mode=backup and
    state=absent, and with mode=restore, every backup lookup is by the
    backup parameter with filters built from source_volume as it was given:
    when source_volume is supplied and not empty, [volume_id] is that very
    string, and otherwise the filters are empty; the only volume queries
    such a run makes are those of mode=restore about target_volume, so
    source_volume is never resolved.  With mode=backup, in check mode
    (either state) and for state=present, every backup lookup is filtered
    by the id of the volume that [get_volume(source_volume)] returned. *)
Theorem source_volume_filter :
  ∀ {St} (cloud : Cloud St) (module : AnsibleModule) (s : St),
    let p := module_params module in
    let r := exec (main cloud module) s in
    let source := param_source_volume p in
    (check_mode module = false ∧ param_mode p = mode_backup
       ∧ param_state p = absent
     ∨ param_mode p = mode_restore →
     (∀ name filters answer,
        In (CGetVolumeBackup name filters, answer) (trace_of r) →
        name = param_backup p
        ∧ (∀ sv, source = Some sv → sv ≠ "" →
             filters = {[ "volume_id" := sv ]})
        ∧ (source = None ∨ source = Some "" → filters = ∅))
     ∧ (∀ x answer,
          In (CGetVolume x, answer) (trace_of r)
          ∨ In (CVolumeExists x, answer) (trace_of r) →
          param_mode p = mode_restore ∧ x = param_target_volume p))
    ∧ (param_mode p = mode_backup →
       check_mode module = true ∨ param_state p = present →
       ∀ name filters answer,
         In (CGetVolumeBackup name filters, answer) (trace_of r) →
         name = param_backup p
         ∧ ∃ v, In (CGetVolume source, RVolume (Some v)) (trace_of r)
                ∧ filters = {[ "volume_id" := vol_id v ]}).
Proof.
  intros St cloud module s p r source. subst p r source.
  destruct_module module.
  split.
  - intros Hpath. split.
    + intros n f a.
      destruct Hpath as [(Hcheck & Hmode & Hstate) | Hmode]; cbn in *; subst.
      * run; settle; literal_filter.
      * destruct check; run; settle; literal_filter.
    + intros x a.
      destruct Hpath as [(Hcheck & Hmode & Hstate) | Hmode]; cbn in *; subst.
      * run; settle.
      * destruct check; run; settle.
  - intros Hmode Hpath n f a. cbn in *; subst.
    destruct check, state; destruct_or?; try discriminate; run; settle.
Qed.

Lemma source_volume_filter_witness :
  let by_name := MemCloud.module_of "bk-1" (Some "vol-1") None mode_backup
                                    absent false in
  let created := MemCloud.module_of "bk-1" (Some "vol-1") None mode_backup
                                    present false in
  let r := exec (main MemCloud.cloud created) MemCloud.one_backup in
  (({[ "volume_id" := "vol-1" ]} : gmap string string)
   = {[ "volume_id" := "vol-1" ]})
  ∧ ∃ v, In (CGetVolume (Some "vol-1"), RVolume (Some v)) (trace_of r)
         ∧ ({[ "volume_id" := "vol-1-id" ]} : gmap string string)
           = {[ "volume_id" := vol_id v ]}.
Proof.
  intros by_name created r.
  destruct (source_volume_filter MemCloud.cloud by_name MemCloud.one_backup)
    as [Hliteral _].
  destruct (source_volume_filter MemCloud.cloud created MemCloud.one_backup)
    as [_ Hresolved].
  split.
  - destruct Hliteral as [Hlookup _]; [left; repeat split |].
    destruct (Hlookup "bk-1" {[ "volume_id" := "vol-1" ]} (RBackup None))
      as (_ & Hsupplied & _); [vm_compute; auto |].
    apply (Hsupplied "vol-1"); [reflexivity | discriminate].
  - apply (Hresolved eq_refl (or_intror eq_refl) "bk-1"
             {[ "volume_id" := "vol-1-id" ]} (RBackup (Some MemCloud.bk1))).
    vm_compute; auto.
Defined.

(** C9 as stated fails for a check-mode invocation with mode=backup and
    state=absent: the dry run resolves source_volume, given by name as
    [vol-1], through [get_volume] and filters the lookup by the volume's id
    [vol-1-id], not by the string that was given. *)
Lemma absent_check_mode_resolves_source_volume :
  let module := MemCloud.module_of "bk-1" (Some "vol-1") None mode_backup
                                   absent true in
  let r := exec (main MemCloud.cloud module) MemCloud.one_backup in
  In (CGetVolume (Some "vol-1"), RVolume (Some MemCloud.vol1)) (trace_of r)
  ∧ In (CGetVolumeBackup "bk-1" {[ "volume_id" := "vol-1-id" ]},
        RBackup (Some MemCloud.bk1)) (trace_of r)
  ∧ ¬ (∀ name filters answer,
         In (CGetVolumeBackup name filters, answer) (trace_of r) →
         filters = {[ "volume_id" := "vol-1" ]}).
Proof.
  repeat split; try (vm_compute; auto; fail).
  intros Hliteral.
  assert (Hfilters : ({[ "volume_id" := "vol-1-id" ]} : gmap string string)
                     = {[ "volume_id" := "vol-1" ]}).
  { apply (Hliteral "bk-1" _ (RBackup (Some MemCloud.bk1))).
    vm_compute; auto. }
  apply (f_equal (λ m : gmap string string, m !! "volume_id")) in Hfilters.
  rewrite !lookup_singleton_eq in Hfilters. discriminate.
Qed.

(** * Further properties of the module *)

Ltac last_event :=
  first [ eexists []; reflexivity
        | eexists [_]; reflexivity
        | eexists [_;_]; reflexivity
        | eexists [_;_;_]; reflexivity ].

(** With read-only queries, the state after a query is the state before. *)
Ltac same_state Hro :=
  destruct Hro as [Hgv Hve Hgb];
  repeat match goal with
    | H : get_volume ?c ?x ?s = (_, ?s') |- _ =>
        assert (s' = s) by exact (query_answer _ _ _ _ (Hgv x s) H);
        subst s'
    | H : volume_exists ?c ?x ?s = (_, ?s') |- _ =>
        assert (s' = s) by exact (query_answer _ _ _ _ (Hve x s) H);
        subst s'
    | H : get_volume_backup ?c ?n ?f ?s = (_, ?s') |- _ =>
        assert (s' = s) by exact (query_answer _ _ _ _ (Hgb n f s) H);
        subst s'
    end.

Lemma mem_cloud_read_only : ReadOnlyQueries MemCloud.cloud.
Proof. split; reflexivity. Qed.

(** ** Shape of a run *)

(** X1.  Whatever the parameters and whatever the facade answers, a run
    makes at most one mutating facade call, and when it makes one, that
    call is the last facade call of the run. *)
Theorem at_most_one_mutation :
  ∀ {St} (cloud : Cloud St) (module : AnsibleModule) (s : St),
    let r := exec (main cloud module) s in
    mutating_calls (trace_of r) = []
    ∨ ∃ before c answer,
        trace_of r = (before ++ [(c, answer)])%list
        ∧ is_mutating c = true
        ∧ mutating_calls before = [].
Proof.
  intros St cloud module s r. subst r.
  destruct_module module.
  destruct mode, state, check; run;
    first [ left; reflexivity
          | right; eexists [_], _, _; repeat split; reflexivity
          | right; eexists [_;_], _, _; repeat split; reflexivity
          | right; eexists [_;_;_], _, _; repeat split; reflexivity ].
Qed.

(** X2.  [main] never falls off its end: every run leaves through
    [exit_json], through [fail_json], or with an exception that is neither
    an OpenStackCloudException nor a ResourceTimeout. *)
Theorem main_always_reports :
  ∀ {St} (cloud : Cloud St) (module : AnsibleModule) (s : St),
    let r := exec (main cloud module) s in
    (∃ kw, outcome_of r = ExitJson kw)
    ∨ (∃ kw, outcome_of r = FailJson kw)
    ∨ (∃ e, outcome_of r = Uncaught e ∧ catches_cloud_or_timeout e = false).
Proof.
  intros St cloud module s r. subst r.
  destruct_module module.
  destruct mode, state, check; run; eauto 6.
Qed.

(** X3.  A mutating call is made only outside check mode, and its kind is
    fixed by the parameters: a create only with mode=backup and
    state=present, a delete only with mode=backup and state=absent, a
    restore only with mode=restore. *)
Theorem mutation_fits_mode :
  ∀ {St} (cloud : Cloud St) (module : AnsibleModule) (s : St) (c : call),
    let p := module_params module in
    In c (mutating_calls (trace_of (exec (main cloud module) s))) →
    check_mode module = false
    ∧ match c with
      | CCreateVolumeBackup _ _ _ _ _ _ =>
          param_mode p = mode_backup ∧ param_state p = present
      | CDeleteVolumeBackup _ _ _ =>
          param_mode p = mode_backup ∧ param_state p = absent
      | CRestoreVolumeBackup _ _ _ _ _ => param_mode p = mode_restore
      | _ => False
      end.
Proof.
  intros St cloud module s c p. subst p.
  destruct_module module.
  destruct mode, state, check; run; cbn; intros Hin; destruct_or?;
    simplify_eq; try done.
Qed.

Lemma mutation_fits_mode_witness :
  false = false ∧ mode_backup = mode_backup ∧ absent = absent.
Proof.
  apply (mutation_fits_mode MemCloud.cloud
           (MemCloud.module_of "bk-1" None None mode_backup absent false)
           MemCloud.one_backup (CDeleteVolumeBackup "bk-1-id" true 180)).
  vm_compute; auto.
Defined.

(** X4.  With mode=restore the parameters state, force and
    display_description play no part: changing them changes nothing in the
    run, neither its outcome nor its facade calls. *)
Theorem restore_ignores_state :
  ∀ {St} (cloud : Cloud St) (p : params) (check : bool) (s : St)
    (state' : state_t) (force' : bool) (description' : option string),
    param_mode p = mode_restore →
    exec (main cloud (mkModule p check)) s
    = exec (main cloud
              (mkModule
                 (mkParams (param_backup p) description'
                           (param_source_volume p) (param_target_volume p)
                           mode_restore force' state' (param_wait p)
                           (param_timeout p))
                 check)) s.
Proof.
  intros St cloud p check s state' force' description' Hmode.
  destruct p; cbn in *; subst. reflexivity.
Qed.

Lemma restore_ignores_state_witness :
  exec (main MemCloud.cloud
          (MemCloud.module_of "bk-1" None None mode_restore present false))
       MemCloud.one_backup
  = exec (main MemCloud.cloud
            (mkModule (mkParams "bk-1" (Some "nightly") None None mode_restore
                                true absent true 180) false))
         MemCloud.one_backup.
Proof.
  apply (restore_ignores_state MemCloud.cloud
           (module_params
              (MemCloud.module_of "bk-1" None None mode_restore present false))
           false MemCloud.one_backup absent true (Some "nightly")).
  reflexivity.
Defined.

(** ** What the result says *)

(** X5.  Outside check mode the changed field tells the truth about the
    facade: a run that exits with changed=true made exactly one mutating
    call, as its last facade call, and that call returned; a run that exits
    otherwise has changed=false and made no mutating call. *)
Theorem changed_reports_mutation :
  ∀ {St} (cloud : Cloud St) (module : AnsibleModule) (s : St),
    let r := exec (main cloud module) s in
    check_mode module = false →
    ∀ kw, outcome_of r = ExitJson kw →
      (kw !! "changed" = Some (PBool true)
       ∧ ∃ before c answer,
           trace_of r = (before ++ [(c, answer)])%list
           ∧ is_mutating c = true
           ∧ (∀ e, answer ≠ RRaised e)
           ∧ mutating_calls before = [])
      ∨ (kw !! "changed" = Some (PBool false)
         ∧ mutating_calls (trace_of r) = []).
Proof.
  intros St cloud module s r Hcheck kw. subst r.
  destruct_module module.
  destruct mode, state; run; intros Hexit; simplify_eq.
  all: first [ right; split; [by simplify_map_eq | reflexivity]
             | left; split; [by simplify_map_eq |] ].
  all: first
         [ eexists [_], _, _; repeat split; (reflexivity || discriminate)
         | eexists [_;_], _, _; repeat split; (reflexivity || discriminate)
         | eexists [_;_;_], _, _; repeat split; (reflexivity || discriminate) ].
Qed.

Lemma changed_reports_mutation_witness :
  let module := MemCloud.module_of "bk-1" None None mode_backup absent false in
  let r := exec (main MemCloud.cloud module) MemCloud.one_backup in
  let kw : gmap string pyval :=
    {[ "changed" := PBool true; "backup_id" := PStr "bk-1-id" ]} in
  (kw !! "changed" = Some (PBool true)
   ∧ ∃ before c answer,
       trace_of r = (before ++ [(c, answer)])%list
       ∧ is_mutating c = true
       ∧ (∀ e, answer ≠ RRaised e)
       ∧ mutating_calls before = [])
  ∨ (kw !! "changed" = Some (PBool false)
     ∧ mutating_calls (trace_of r) = []).
Proof.
  intros module r kw.
  apply (changed_reports_mutation MemCloud.cloud module MemCloud.one_backup
           eq_refl kw).
  vm_compute. reflexivity.
Defined.

(** X6.  The result has a fixed shape: what [exit_json] is given always
    has a boolean changed field, except for the skipped dry run of
    mode=restore, which has exactly skipped and msg; what [fail_json] is
    given is msg and nothing else. *)
Theorem result_schema :
  ∀ {St} (cloud : Cloud St) (module : AnsibleModule) (s : St),
    let p := module_params module in
    let r := exec (main cloud module) s in
    (∀ kw, outcome_of r = ExitJson kw →
       (∃ b, kw !! "changed" = Some (PBool b))
       ∨ (check_mode module = true ∧ param_mode p = mode_restore
          ∧ kw = {[ "skipped" := PBool true;
                    "msg" := PStr restore_check_mode_msg ]}))
    ∧ (∀ kw, outcome_of r = FailJson kw → ∃ v, kw = {[ "msg" := v ]}).
Proof.
  intros St cloud module s p r. subst p r.
  destruct_module module.
  split; intros kw;
    destruct mode, state, check; run; intros Hout; simplify_eq; eauto.
  all: left; eexists; by simplify_map_eq.
Qed.

(** ** A volume that is gone when it is fetched *)

(** X7.  With mode=restore outside check mode, when the facade answers
    that target_volume exists but [get_volume] then returns no volume, the
    subscript [volume['id']] raises a TypeError that [main] does not catch;
    the run stops there, before any backup lookup or restore. *)
Theorem restore_vanished_target_raises :
  ∀ {St} (cloud : Cloud St) (module : AnsibleModule) (s : St),
    let p := module_params module in
    let r := exec (main cloud module) s in
    let target := param_target_volume p in
    check_mode module = false →
    param_mode p = mode_restore →
    In (CVolumeExists target, RBool true) (trace_of r) →
    In (CGetVolume target, RVolume None) (trace_of r) →
    outcome_of r = Uncaught TypeError
    ∧ trace_of r = [(CVolumeExists target, RBool true);
                    (CGetVolume target, RVolume None)].
Proof.
  intros St cloud module s p r target Hcheck Hmode. subst p r target.
  destruct_module module.
  run; settle.
Qed.

Lemma restore_vanished_target_raises_witness :
  let module :=
    MemCloud.module_of "bk-1" None (Some "vol-1") mode_restore present false in
  let r := exec (main VanishingCloud.cloud module) tt in
  outcome_of r = Uncaught TypeError
  ∧ trace_of r = [(CVolumeExists (Some "vol-1"), RBool true);
                  (CGetVolume (Some "vol-1"), RVolume None)].
Proof.
  intros module r.
  apply (restore_vanished_target_raises VanishingCloud.cloud module tt
           eq_refl eq_refl); vm_compute; auto.
Defined.

(** X8.  With mode=backup and state=present outside check mode, when
    [get_volume] returns no volume although [volume_exists] answered True,
    the attribute access [volume.id] raises an AttributeError that [main]
    does not catch; the run stops there, before any backup lookup or
    create. *)
Theorem present_vanished_volume_raises :
  ∀ {St} (cloud : Cloud St) (module : AnsibleModule) (s : St),
    let p := module_params module in
    let r := exec (main cloud module) s in
    let source := param_source_volume p in
    check_mode module = false →
    param_mode p = mode_backup →
    param_state p = present →
    In (CGetVolume source, RVolume None) (trace_of r) →
    outcome_of r = Uncaught AttributeError
    ∧ trace_of r = [(CVolumeExists source, RBool true);
                    (CGetVolume source, RVolume None)].
Proof.
  intros St cloud module s p r source Hcheck Hmode Hstate. subst p r source.
  destruct_module module.
  run; settle.
Qed.

Lemma present_vanished_volume_raises_witness :
  let module :=
    MemCloud.module_of "bk-1" (Some "vol-1") None mode_backup present false in
  let r := exec (main VanishingCloud.cloud module) tt in
  outcome_of r = Uncaught AttributeError
  ∧ trace_of r = [(CVolumeExists (Some "vol-1"), RBool true);
                  (CGetVolume (Some "vol-1"), RVolume None)].
Proof.
  intros module r.
  apply (present_vanished_volume_raises VanishingCloud.cloud module tt
           eq_refl eq_refl eq_refl); vm_compute; auto.
Defined.

(** ** Errors outside the create handler *)

(** X9.  In any run, check mode included, when one of the facade's queries
    raises, nothing is called after it and no mutating call has been made;
    an OpenStackCloudException or ResourceTimeout ends the run in a failure
    whose message is the error's [message], and any other exception leaves
    [main] uncaught. *)
Theorem query_error_surfaces :
  ∀ {St} (cloud : Cloud St) (module : AnsibleModule) (s : St),
    let r := exec (main cloud module) s in
    ∀ c e,
      is_mutating c = false →
      In (c, RRaised e) (trace_of r) →
      (∃ before, trace_of r = (before ++ [(c, RRaised e)])%list)
      ∧ mutating_calls (trace_of r) = []
      ∧ outcome_of r
        = if catches_cloud_or_timeout e
          then FailJson {[ "msg" := exc_message e ]}
          else Uncaught e.
Proof.
  intros St cloud module s r c e Hquery. subst r.
  destruct_module module.
  destruct mode, state, check; run; cbn; intros Hin; destruct_or?;
    simplify_eq; try done.
  all: repeat match goal with H : catches_cloud_or_timeout _ = _ |- _ =>
                rewrite H end.
  all: try congruence.
  all: repeat split; try reflexivity; last_event.
Qed.

Lemma query_error_surfaces_witness :
  let module := MemCloud.module_of "bk-1" None None mode_backup absent false in
  let r := exec (main (UnreachableCloud.cloud UnreachableCloud.timed_out)
                      module) tt in
  outcome_of r = FailJson {[ "msg" := PStr "Timeout waiting" ]}.
Proof.
  intros module r.
  apply (query_error_surfaces
           (UnreachableCloud.cloud UnreachableCloud.timed_out) module tt
           (CGetVolumeBackup "bk-1" ∅) UnreachableCloud.timed_out eq_refl).
  vm_compute; auto.
Defined.

(** X10.  In any run, when a create, delete or restore call raises
    something that is not an HttpException, the handler of
    [_present_volume_backup] does not apply: the call is the only mutating
    call and the last facade call of the run, an OpenStackCloudException or
    ResourceTimeout (a timeout while waiting, say) ends the run in a
    failure whose message is the error's [message], and any other exception
    leaves [main] uncaught. *)
Theorem mutation_other_error_surfaces :
  ∀ {St} (cloud : Cloud St) (module : AnsibleModule) (s : St),
    let r := exec (main cloud module) s in
    ∀ c e,
      is_mutating c = true →
      catches_HttpException e = false →
      In (c, RRaised e) (trace_of r) →
      (∃ before, trace_of r = (before ++ [(c, RRaised e)])%list)
      ∧ mutating_calls (trace_of r) = [c]
      ∧ outcome_of r
        = if catches_cloud_or_timeout e
          then FailJson {[ "msg" := exc_message e ]}
          else Uncaught e.
Proof.
  intros St cloud module s r c e Hmut Hhttp. subst r.
  destruct_module module.
  destruct mode, state, check; run; cbn; intros Hin; destruct_or?;
    simplify_eq; try done.
  all: repeat match goal with H : catches_cloud_or_timeout _ = _ |- _ =>
                rewrite H end.
  all: try congruence.
  all: repeat split; try reflexivity; last_event.
Qed.

Lemma mutation_other_error_surfaces_witness :
  let module :=
    MemCloud.module_of "bk-2" (Some "vol-1") None mode_backup present false in
  let s := MemCloud.mkState [MemCloud.vol1] []
                            (Some UnreachableCloud.timed_out) in
  let r := exec (main MemCloud.cloud module) s in
  outcome_of r = FailJson {[ "msg" := PStr "Timeout waiting" ]}.
Proof.
  intros module s r.
  apply (mutation_other_error_surfaces MemCloud.cloud module s
           (CCreateVolumeBackup "vol-1-id" false true 180 "bk-2" None)
           UnreachableCloud.timed_out eq_refl eq_refl).
  vm_compute; auto.
Defined.

(** ** Dry run against real run *)

(** X11.  With mode=backup and state=present, on a facade whose queries
    are read-only, the dry run predicts the real run: started from the same
    facade state, if the check-mode run and the real run both exit, they
    report the same changed value. *)
Theorem present_dry_run_agrees :
  ∀ {St} (cloud : Cloud St) (p : params) (s : St),
    let dry := exec (main cloud (mkModule p true)) s in
    let real := exec (main cloud (mkModule p false)) s in
    ReadOnlyQueries cloud →
    param_mode p = mode_backup →
    param_state p = present →
    ∀ predicted reported,
      outcome_of dry = ExitJson predicted →
      outcome_of real = ExitJson reported →
      reported !! "changed" = predicted !! "changed".
Proof.
  intros St cloud p s dry real Hro Hmode Hstate predicted reported.
  subst dry real. destruct p; cbn in *; subst.
  run; intros Hdry Hreal; simplify_eq; same_state Hro; simplify_eq;
    first [ by simplify_map_eq | exfalso; congruence ].
Qed.

Lemma present_dry_run_agrees_witness :
  let p := module_params
             (MemCloud.module_of "bk-2" (Some "vol-1") None mode_backup
                                 present false) in
  ({[ "changed" := PBool true;
      "backup" := PBackup (MemCloud.new_backup "vol-1-id" "bk-2") ]}
     : gmap string pyval) !! "changed"
  = ({[ "changed" := PBool true ]} : gmap string pyval) !! "changed".
Proof.
  intros p.
  apply (present_dry_run_agrees MemCloud.cloud p MemCloud.one_backup
           mem_cloud_read_only eq_refl eq_refl);
    vm_compute; reflexivity.
Defined.

(** X12.  With mode=backup and state=absent the dry run filters the lookup
    by the id of the resolved volume while the real run filters by
    source_volume as given.  When source_volume is given as the id of the
    volume it resolves to, and the facade's queries are read-only, the two
    agree: if the check-mode run and the real run both exit, they report
    the same changed value. *)
Theorem absent_dry_run_agrees_on_id :
  ∀ {St} (cloud : Cloud St) (p : params) (s : St),
    let dry := exec (main cloud (mkModule p true)) s in
    let real := exec (main cloud (mkModule p false)) s in
    ReadOnlyQueries cloud →
    param_mode p = mode_backup →
    param_state p = absent →
    ∀ v, In (CGetVolume (param_source_volume p), RVolume (Some v))
            (trace_of dry) →
         vol_id v ≠ "" →
         param_source_volume p = Some (vol_id v) →
    ∀ predicted reported,
      outcome_of dry = ExitJson predicted →
      outcome_of real = ExitJson reported →
      reported !! "changed" = predicted !! "changed".
Proof.
  intros St cloud p s dry real Hro Hmode Hstate v Hin Hne Hsource
         predicted reported.
  subst dry real. destruct p; cbn in *; subst.
  revert Hin. unfold_module; cbn.
  destruct (String.eqb_spec (vol_id v) "") as [Hempty | _];
    [congruence |]; cbn.
  repeat (facade_step; cbn); intros Hin Hdry Hreal; destruct_or?;
    simplify_eq; same_state Hro; simplify_eq;
    first [ by simplify_map_eq
          | exfalso; rewrite insert_empty in *; congruence ].
Qed.

Lemma absent_dry_run_agrees_on_id_witness :
  let p := module_params
             (MemCloud.module_of "bk-1" (Some "vol-1-id") None mode_backup
                                 absent false) in
  ({[ "changed" := PBool true; "backup_id" := PStr "bk-1-id" ]}
     : gmap string pyval) !! "changed"
  = ({[ "changed" := PBool true ]} : gmap string pyval) !! "changed".
Proof.
  intros p.
  apply (absent_dry_run_agrees_on_id MemCloud.cloud p MemCloud.one_backup
           mem_cloud_read_only eq_refl eq_refl MemCloud.vol1);
    first [ discriminate | vm_compute; auto ].
Defined.

(** ** Guards before a call *)

(** X13.  source_volume is not checked before use.  With mode=backup and
    state=present outside check mode, when source_volume is omitted the
    run still asks the facade first, with [volume_exists(None)]; when the
    facade answers False, the failure message names the volume as 'None'. *)
Theorem present_without_source_volume :
  ∀ {St} (cloud : Cloud St) (module : AnsibleModule) (s : St),
    let p := module_params module in
    let r := exec (main cloud module) s in
    check_mode module = false →
    param_mode p = mode_backup →
    param_state p = present →
    param_source_volume p = None →
    (∃ answer rest, trace_of r = (CVolumeExists None, answer) :: rest)
    ∧ (In (CVolumeExists None, RBool false) (trace_of r) →
       outcome_of r
       = FailJson {[ "msg" :=
                      PStr "No volume with name or id 'None' was found." ]}).
Proof.
  intros St cloud module s p r Hcheck Hmode Hstate Hsource. subst p r.
  destruct_module module.
  run; settle.
Qed.

Lemma present_without_source_volume_witness :
  let module := MemCloud.module_of "bk-1" None None mode_backup present false in
  let r := exec (main MemCloud.cloud module) MemCloud.one_backup in
  outcome_of r
  = FailJson {[ "msg" := PStr "No volume with name or id 'None' was found." ]}.
Proof.
  intros module r.
  apply (present_without_source_volume MemCloud.cloud module
           MemCloud.one_backup eq_refl eq_refl eq_refl eq_refl).
  vm_compute; auto.
Defined.

(** X14.  Outside check mode a volume is fetched only after the facade has
    said it exists: whenever a run calls [get_volume], that call is its
    second facade call, right after a [volume_exists] on the same name that
    answered True. *)
Theorem get_volume_is_guarded :
  ∀ {St} (cloud : Cloud St) (module : AnsibleModule) (s : St),
    let r := exec (main cloud module) s in
    check_mode module = false →
    ∀ x answer,
      In (CGetVolume x, answer) (trace_of r) →
      ∃ rest,
        trace_of r
        = (CVolumeExists x, RBool true) :: (CGetVolume x, answer) :: rest.
Proof.
  intros St cloud module s r Hcheck x answer. subst r.
  destruct_module module.
  destruct mode, state; run; settle.
Qed.

Lemma get_volume_is_guarded_witness :
  let module :=
    MemCloud.module_of "bk-1" (Some "vol-1") None mode_backup present false in
  let r := exec (main MemCloud.cloud module) MemCloud.one_backup in
  ∃ rest,
    trace_of r
    = (CVolumeExists (Some "vol-1"), RBool true)
      :: (CGetVolume (Some "vol-1"), RVolume (Some MemCloud.vol1)) :: rest.
Proof.
  intros module r.
  apply (get_volume_is_guarded MemCloud.cloud module MemCloud.one_backup
           eq_refl).
  vm_compute; auto.
Defined.

(** X15.  Every mutating call follows from a backup lookup of the same
    run.  A create is made only after the lookup of its own name, filtered
    by its own volume id, found nothing; a delete or a restore is made only
    on the id of a backup that a lookup of the run returned. *)
Theorem mutation_follows_lookup :
  ∀ {St} (cloud : Cloud St) (module : AnsibleModule) (s : St) (c : call),
    let r := exec (main cloud module) s in
    In c (mutating_calls (trace_of r)) →
    match c with
    | CCreateVolumeBackup volume_id _ _ _ name _ =>
        In (CGetVolumeBackup name {[ "volume_id" := volume_id ]},
            RBackup None) (trace_of r)
    | CDeleteVolumeBackup id _ _ | CRestoreVolumeBackup id _ _ _ _ =>
        ∃ name filters backup,
          In (CGetVolumeBackup name filters, RBackup (Some backup))
             (trace_of r)
          ∧ id = bk_id backup
    | _ => False
    end.
Proof.
  intros St cloud module s c r. subst r.
  destruct_module module.
  destruct mode, state, check; run; cbn; intros Hin; destruct_or?;
    simplify_eq; try done; eauto 10.
Qed.

Lemma mutation_follows_lookup_witness :
  let module := MemCloud.module_of "bk-1" None None mode_restore present false in
  let r := exec (main MemCloud.cloud module) MemCloud.one_backup in
  ∃ name filters backup,
    In (CGetVolumeBackup name filters, RBackup (Some backup)) (trace_of r)
    ∧ "bk-1-id" = bk_id backup.
Proof.
  intros module r.
  apply (mutation_follows_lookup MemCloud.cloud module MemCloud.one_backup
           (CRestoreVolumeBackup "bk-1-id" None None true 180)).
  vm_compute; auto.
Defined.
